(** * PyQSO calendar dialog: [pyqso/calendar.py]

    A shallow embedding of the [Calendar] class (constructor and [date]
    property) together with the Python and toolkit primitives it relies on,
    followed by the properties of the [YYYYMMDD] date string it produces. *)

From Stdlib Require Import ZArith String Ascii Lia.
From stdpp Require Import gmap strings list.
From Equations Require Import Equations.

Open Scope Z_scope.

(** ** Python primitives *)

(** Object identities (references to toolkit objects). *)
Abbreviation loc := positive.

(** Values stored in instance attributes: [None] or an object reference. *)
Inductive value :=
| VNone
| VObj (l : loc).

(** Exceptions carry their class name and message. *)
Inductive exn :=
| Exn (class msg : string).

Inductive result (A : Type) :=
| Ok (a : A)
| Raised (e : exn).
Arguments Ok {A} a.
Arguments Raised {A} e.

(** The local variables [month] and [day] of [date] are rebound from an
    [int] to a [str] on one branch only; [scalar] is the type of what they
    may hold. *)
Inductive scalar :=
| IsInt (z : Z)
| IsStr (s : string).

(** [chr(ord('0') + d)] *)
Definition digit_char (d : Z) : ascii := ascii_of_nat (48 + Z.to_nat d).

(** Decimal digits of a non-negative [int], most significant first. *)
Equations? str_nat (n : Z) : string by wf (Z.to_nat n) lt :=
  str_nat n with Z_lt_dec n 10 => {
    | left _ := String (digit_char n) EmptyString;
    | right _ := str_nat (n / 10) +:+ String (digit_char (n mod 10)) EmptyString }.
Proof. apply Z2Nat.inj_lt; Z.div_mod_to_equations; lia. Qed.

(** Python's [str] on an [int]. *)
Definition str (n : Z) : string :=
  if n <? 0 then String "-" (str_nat (- n)) else str_nat n.

(** Python's [str] on what [month] and [day] may hold: the decimal
    representation of an [int], the identity on a [str]. *)
Definition py_str (v : scalar) : string :=
  match v with
  | IsInt z => str z
  | IsStr s => s
  end.

(** ** The toolkit interface

    The builder, the dialog and the calendar widget are objects of the GUI
    toolkit. Their methods act on the toolkit's own state [G]; each may
    return or raise. *)
Class Toolkit (G : Type) := {
  add_objects_from_file : loc -> string -> list string -> G -> result Z * G;
  get_object : loc -> string -> G -> result value * G;
  show_all : loc -> G -> result unit * G;
  get_date : loc -> G -> result (Z * Z * Z) * G
}.

(** History of the toolkit methods invoked so far (ghost state). *)
Inductive event :=
| EAddObjectsFromFile (b : loc) (path : string) (names : list string)
| EGetObject (b : loc) (name : string)
| EShowAll (d : loc)
| EGetDate (c : loc).

(** ** Program state and its monad *)

Record state (G : Type) := State {
  gui : G;                        (* the toolkit's objects *)
  log : list string;              (* records emitted through [logging] *)
  self : gmap string value;       (* the instance's attributes *)
  trace : list event              (* toolkit calls made so far *)
}.
Arguments State {G} gui log self trace.
Arguments gui {G} s.
Arguments log {G} s.
Arguments self {G} s.
Arguments trace {G} s.

Definition M (G A : Type) : Type := state G -> result A * state G.

Definition ret {G A} (a : A) : M G A := fun st => (Ok a, st).

Definition raise {G A} (e : exn) : M G A := fun st => (Raised e, st).

Definition bind {G A B} (m : M G A) (k : A -> M G B) : M G B :=
  fun st =>
    match m st with
    | (Ok a, st') => k a st'
    | (Raised e, st') => (Raised e, st')
    end.

#[export] Instance M_ret {G} : MRet (M G) := @ret G.
#[export] Instance M_bind {G} : MBind (M G) := fun A B k m => bind m k.

(** [logging.debug(msg)] *)
Definition logging_debug {G} (msg : string) : M G unit :=
  fun st => (Ok tt, State (gui st) (log st ++ [msg]) (self st) (trace st)).

(** [self.name = v] *)
Definition setattr {G} (name : string) (v : value) : M G unit :=
  fun st => (Ok tt, State (gui st) (log st) (<[name := v]> (self st)) (trace st)).

(** [self.name] *)
Definition getattr {G} (name : string) : M G value :=
  fun st =>
    match self st !! name with
    | Some v => (Ok v, st)
    | None =>
        (Raised (Exn "AttributeError"
                     ("'Calendar' object has no attribute '" +:+ name +:+ "'")), st)
    end.

(** [recv.meth(...)]: [None] has no methods; on an object the toolkit's
    method [op] runs, and the call is recorded. *)
Definition invoke {G A} (recv : value) (meth : string)
    (ev : loc -> event) (op : loc -> G -> result A * G) : M G A :=
  fun st =>
    match recv with
    | VNone =>
        (Raised (Exn "AttributeError"
                     ("'NoneType' object has no attribute '" +:+ meth +:+ "'")), st)
    | VObj l =>
        let '(r, g) := op l (gui st) in
        (r, State g (log st) (self st) (trace st ++ [ev l]))
    end.

(** ** The [Calendar] class *)

Module Calendar.
Section Calendar.
Context {G : Type} {T : Toolkit G}.

(** [os.path.abspath(os.path.dirname(__file__))] *)
Variable module_dir : string.

Definition __init__ (builder : value) : M G unit :=
  logging_debug "Setting up the calendar dialog...";;
  setattr "builder" builder;;
  b ← getattr "builder";
  invoke b "add_objects_from_file"
    (fun l => EAddObjectsFromFile l (module_dir +:+ "/glade/pyqso.glade") ["calendar_dialog"%string])
    (fun l => add_objects_from_file l (module_dir +:+ "/glade/pyqso.glade") ["calendar_dialog"%string]);;
  b ← getattr "builder";
  d ← invoke b "get_object" (fun l => EGetObject l "calendar_dialog")
         (fun l => get_object l "calendar_dialog");
  setattr "dialog" d;;
  b ← getattr "builder";
  c ← invoke b "get_object" (fun l => EGetObject l "calendar")
         (fun l => get_object l "calendar");
  setattr "calendar" c;;
  d ← getattr "dialog";
  invoke d "show_all" EShowAll show_all;;
  logging_debug "Calendar dialog ready!";;
  mret tt.

(** [Calendar(builder)]: a fresh instance, then [__init__]. *)
Definition new (builder : value) : M G unit :=
  fun st => __init__ builder (State (gui st) (log st) ∅ (trace st)).

Definition date : M G string :=
  logging_debug "Retrieving the date from the calendar...";;
  c ← getattr "calendar";
  '(year, month, day) ← invoke c "get_date" EGetDate get_date;
  let month := if month + 1 <? 10 then IsStr ("0" +:+ str (month + 1))
               else IsInt (month + 1) in
  let day := if day <? 10 then IsStr ("0" +:+ str day) else IsInt day in
  let date := str year +:+ py_str month +:+ py_str day in
  mret date.

End Calendar.
End Calendar.

(** ** A reference toolkit

    A small model of the GTK objects the class talks to, used to run the
    class on concrete dialogs: a builder that instantiates named objects
    from layout files, dialogs with child widgets, and calendar widgets
    holding a [(year, month, day)] selection with a 0-indexed month. *)

Module Gtk.

Inductive gobject :=
| Builder (objects : gmap string loc)
| Dialog (visible : bool) (children : list loc)
| CalendarWidget (year month day : Z) (visible : bool).

(** A layout file gives, for each top-level object id, the named objects
    that building it instantiates (the object itself and its descendants). *)
Abbreviation layout := (gmap string (list (string * loc * gobject))).

Record gtk := Make {
  heap : gmap loc gobject;
  disk : gmap string layout
}.

Definition no_attribute {A} (meth : string) (g : gtk) : result A * gtk :=
  (Raised (Exn "AttributeError" ("object has no attribute '" +:+ meth +:+ "'")), g).

Definition install (entries : list (string * loc * gobject))
    (acc : gmap string loc * gmap loc gobject) : gmap string loc * gmap loc gobject :=
  foldl (fun acc e => let '(name, l, o) := e in (<[name := l]> (fst acc), <[l := o]> (snd acc)))
        acc entries.

Fixpoint build (lay : layout) (names : list string)
    (acc : gmap string loc * gmap loc gobject) : option (gmap string loc * gmap loc gobject) :=
  match names with
  | [] => Some acc
  | name :: names' =>
      match lay !! name with
      | Some entries => build lay names' (install entries acc)
      | None => None
      end
  end.

Definition builder_add_objects_from_file (b : loc) (path : string) (names : list string)
    (g : gtk) : result Z * gtk :=
  match heap g !! b with
  | Some (Builder objects) =>
      match disk g !! path with
      | Some lay =>
          match build lay names (objects, heap g) with
          | Some (objects', heap') => (Ok 1, Make (<[b := Builder objects']> heap') (disk g))
          | None => (Raised (Exn "GLib.Error" "object id not found in file"), g)
          end
      | None => (Raised (Exn "GLib.Error" "failed to open file"), g)
      end
  | _ => no_attribute "add_objects_from_file" g
  end.

(** A name the builder does not know yields [None], not an exception. *)
Definition builder_get_object (b : loc) (name : string) (g : gtk) : result value * gtk :=
  match heap g !! b with
  | Some (Builder objects) =>
      match objects !! name with
      | Some l => (Ok (VObj l), g)
      | None => (Ok VNone, g)
      end
  | _ => no_attribute "get_object" g
  end.

Definition set_visible (o : gobject) : gobject :=
  match o with
  | Builder objects => Builder objects
  | Dialog _ children => Dialog true children
  | CalendarWidget year month day _ => CalendarWidget year month day true
  end.

Definition widget_show_all (w : loc) (g : gtk) : result unit * gtk :=
  match heap g !! w with
  | Some (Dialog _ children) =>
      (Ok tt, Make (foldr (alter set_visible) (alter set_visible w (heap g)) children) (disk g))
  | Some (CalendarWidget _ _ _ _) => (Ok tt, Make (alter set_visible w (heap g)) (disk g))
  | _ => no_attribute "show_all" g
  end.

Definition calendar_get_date (c : loc) (g : gtk) : result (Z * Z * Z) * gtk :=
  match heap g !! c with
  | Some (CalendarWidget year month day _) => (Ok (year, month, day), g)
  | _ => no_attribute "get_date" g
  end.

#[global] Instance toolkit : Toolkit gtk := {
  add_objects_from_file := builder_add_objects_from_file;
  get_object := builder_get_object;
  show_all := widget_show_all;
  get_date := calendar_get_date
}.

(** The user picks a date in the calendar widget [c]. *)
Definition select (c : loc) (year month day : Z) (st : state gtk) : state gtk :=
  let pick o :=
    match o with
    | CalendarWidget _ _ _ visible => CalendarWidget year month day visible
    | _ => o
    end in
  State (Make (alter pick c (heap (gui st))) (disk (gui st))) (log st) (self st) (trace st).

(** A start state: an empty builder at [1], and the application's layout
    file defining the dialog [2] with the calendar [3] inside it. *)
Definition pyqso_glade : layout :=
  {[ "calendar_dialog"%string :=
       [("calendar_dialog"%string, 2%positive, Dialog false [3%positive]);
        ("calendar"%string, 3%positive, CalendarWidget 2017 0 1 false)] ]}.

Definition start (files : gmap string layout) : state gtk :=
  State (Make {[ 1%positive := Builder ∅ ]} files) [] ∅ [].

Definition installed : state gtk :=
  start {[ "/usr/lib/pyqso/glade/pyqso.glade"%string := pyqso_glade ]}.

(** The dialog constructed from [installed], with the user's pick. *)
Definition showing (year month day : Z) : state gtk :=
  select 3 year month day
    (snd (Calendar.new "/usr/lib/pyqso" (VObj 1) installed)).

End Gtk.

(** ** The date format, as specified *)

(** A number zero-padded to two digits when its value is less than 10. *)
Definition pad2 (n : Z) : string :=
  if n <? 10 then "0" +:+ str n else str n.

(** Year as is, then the padded 1-indexed month, then the padded day. *)
Definition yyyymmdd (year month0 day : Z) : string :=
  str year +:+ pad2 (month0 + 1) +:+ pad2 day.

(** The [i]-th and [i+1]-th characters of [s], counting from 1. *)
Definition chars2 (i : nat) (s : string) : string := substring (i - 1) 2 s.


(** The instance's calendar widget currently holds the selection [sel]:
    the [calendar] attribute refers to an object whose [get_date] answers
    [sel] and, being a query, leaves the toolkit's objects as they are. *)
Definition selected {G} {T : Toolkit G} (st : state G) (sel : Z * Z * Z) : Prop :=
  exists c, self st !! "calendar"%string = Some (VObj c) /\
            get_date c (gui st) = (Ok sel, gui st).

(** ** A builder with raising lookups

    The reference toolkit with one change: looking up a name the builder
    does not know raises instead of answering [None]. *)

Module Strict.

Definition builder_get_object (b : loc) (name : string) (g : Gtk.gtk) : result value * Gtk.gtk :=
  match Gtk.builder_get_object b name g with
  | (Ok VNone, g') => (Raised (Exn "KeyError" name), g')
  | r => r
  end.

Definition toolkit : Toolkit Gtk.gtk := {|
  add_objects_from_file := Gtk.builder_add_objects_from_file;
  get_object := builder_get_object;
  show_all := Gtk.widget_show_all;
  get_date := Gtk.calendar_get_date
|}.

End Strict.

(** A layout file whose dialog has no widget named [calendar]. *)
Definition bare_glade : Gtk.layout :=
  {[ "calendar_dialog"%string :=
       [("calendar_dialog"%string, 2%positive, Gtk.Dialog false [])] ]}.

Definition bare_install : state Gtk.gtk :=
  Gtk.start {[ "/usr/lib/pyqso/glade/pyqso.glade"%string := bare_glade ]}.

(** A layout file whose [calendar_dialog] entry instantiates its dialog
    under another name. *)
Definition misnamed_glade : Gtk.layout :=
  {[ "calendar_dialog"%string :=
       [("dialog1"%string, 2%positive, Gtk.Dialog false [])] ]}.

Definition misnamed_install : state Gtk.gtk :=
  Gtk.start {[ "/usr/lib/pyqso/glade/pyqso.glade"%string := misnamed_glade ]}.

(** The messages handed to [logging.debug]. *)
Definition msg_setup : string := "Setting up the calendar dialog...".
Definition msg_ready : string := "Calendar dialog ready!".
Definition msg_query : string := "Retrieving the date from the calendar...".

(** A layout file whose [calendar_dialog] is an object that is no widget
    (it has no [show_all]). *)
Definition unshowable_glade : Gtk.layout :=
  {[ "calendar_dialog"%string :=
       [("calendar_dialog"%string, 2%positive, Gtk.Builder ∅);
        ("calendar"%string, 3%positive, Gtk.CalendarWidget 2017 0 1 false)] ]}.

Definition unshowable_install : state Gtk.gtk :=
  Gtk.start {[ "/usr/lib/pyqso/glade/pyqso.glade"%string := unshowable_glade ]}.

(** A layout file whose widget named [calendar] is a dialog (it has no
    [get_date]). *)
Definition dateless_glade : Gtk.layout :=
  {[ "calendar_dialog"%string :=
       [("calendar_dialog"%string, 2%positive, Gtk.Dialog false [3%positive]);
        ("calendar"%string, 3%positive, Gtk.Dialog false [])] ]}.

Definition dateless_install : state Gtk.gtk :=
  Gtk.start {[ "/usr/lib/pyqso/glade/pyqso.glade"%string := dateless_glade ]}.

(** The exceptions Python raises for a missing attribute. *)
Definition no_such_attribute (name : string) : exn :=
  Exn "AttributeError" ("'Calendar' object has no attribute '" +:+ name +:+ "'").
Definition none_has_no (meth : string) : exn :=
  Exn "AttributeError" ("'NoneType' object has no attribute '" +:+ meth +:+ "'").

(** ** Reading a date string *)

(** The characters ['0'] to ['9']. *)
Definition is_digit (a : ascii) : bool :=
  ((48 <=? nat_of_ascii a)%nat && (nat_of_ascii a <=? 57)%nat)%bool.

Fixpoint all_digits (s : string) : bool :=
  match s with
  | EmptyString => true
  | String a s' => (is_digit a && all_digits s')%bool
  end.

(** [ord(a) - ord('0')] *)
Definition digit_value (a : ascii) : Z := Z.of_nat (nat_of_ascii a) - 48.

(** The number a string of decimal digits denotes, most significant digit
    first, continuing from [acc]. *)
Fixpoint int_digits (acc : Z) (s : string) : Z :=
  match s with
  | EmptyString => acc
  | String a s' => int_digits (acc * 10 + digit_value a) s'
  end.

(** Python's [int] on a non-empty string of decimal digits; anything else is
    left out ([None]). *)
Definition int_of_digits (s : string) : option Z :=
  match s with
  | EmptyString => None
  | _ => if all_digits s then Some (int_digits 0 s) else None
  end.

(** Calendar order on selections: by year, then month, then day. *)
Definition earlier (a b : Z * Z * Z) : Prop :=
  let '(y1, m1, d1) := a in
  let '(y2, m2, d2) := b in
  y1 < y2 \/ (y1 = y2 /\ (m1 < m2 \/ (m1 = m2 /\ d1 < d2))).

(** * Properties *)

(** ** Strings *)

Section Strings.

Lemma append_cons (a : ascii) (s t : string) : String a s +:+ t = String a (s +:+ t).
Proof. reflexivity. Qed.

Lemma length_append (s t : string) :
  String.length (s +:+ t) = (String.length s + String.length t)%nat.
Proof.
  induction s as [|a s IH]; [reflexivity|].
  rewrite append_cons. simpl. now rewrite IH.
Qed.

Lemma length_2_inv (s : string) :
  String.length s = 2%nat -> exists a b, s = String a (String b "").
Proof.
  destruct s as [|a [|b [|c s]]]; simpl; try discriminate. eauto.
Qed.

Lemma length_4_inv (s : string) :
  String.length s = 4%nat ->
  exists a b c d, s = String a (String b (String c (String d ""))).
Proof.
  destruct s as [|a [|b [|c [|d [|e s]]]]]; simpl; try discriminate. eauto 6.
Qed.

End Strings.

(** ** Decimal representation *)

Section Decimal.

Lemma str_nat_small (n : Z) : n < 10 -> str_nat n = String (digit_char n) "".
Proof.
  intros Hn. rewrite str_nat_equation_1.
  destruct (Z_lt_dec n 10); [reflexivity | lia].
Qed.

Lemma str_nat_step (n : Z) :
  10 <= n -> str_nat n = str_nat (n / 10) +:+ String (digit_char (n mod 10)) "".
Proof.
  intros Hn. rewrite str_nat_equation_1.
  destruct (Z_lt_dec n 10); [lia | reflexivity].
Qed.

(** A number with [k+1] decimal digits prints as [k+1] characters. *)
Lemma length_str_nat (k : nat) (n : Z) :
  10 ^ Z.of_nat k <= n < 10 ^ Z.of_nat (S k) ->
  String.length (str_nat n) = S k.
Proof.
  revert n. induction k as [|k IH]; intros n Hn.
  - change (10 ^ Z.of_nat 1) with 10 in Hn. now rewrite str_nat_small by lia.
  - rewrite !Nat2Z.inj_succ, !Z.pow_succ_r in Hn by lia.
    rewrite Nat2Z.inj_succ, Z.pow_succ_r in IH by lia.
    assert (0 < 10 ^ Z.of_nat k) by (apply Z.pow_pos_nonneg; lia).
    rewrite str_nat_step by lia.
    rewrite length_append, IH; [simpl; lia|].
    split.
    + apply Z.div_le_lower_bound; lia.
    + apply Z.div_lt_upper_bound; lia.
Qed.

Lemma str_nonneg (n : Z) : 0 <= n -> str n = str_nat n.
Proof. intros Hn. unfold str. destruct (Z.ltb_spec n 0); [lia | reflexivity]. Qed.

Lemma length_str_digit (n : Z) : 0 <= n < 10 -> String.length (str n) = 1%nat.
Proof. intros Hn. rewrite str_nonneg, str_nat_small by lia. reflexivity. Qed.

Lemma length_str_2 (n : Z) : 10 <= n < 100 -> String.length (str n) = 2%nat.
Proof. intros Hn. rewrite str_nonneg by lia. apply (length_str_nat 1). simpl. lia. Qed.

Lemma length_str_4 (n : Z) : 1000 <= n <= 9999 -> String.length (str n) = 4%nat.
Proof. intros Hn. rewrite str_nonneg by lia. apply (length_str_nat 3). simpl. lia. Qed.

(** A number of at least [10^k] prints as more than [k] characters. *)
Lemma length_str_nat_lower (k : nat) (n : Z) :
  10 ^ Z.of_nat k <= n -> (S k <= String.length (str_nat n))%nat.
Proof.
  revert n. induction k as [|k IH]; intros n Hn.
  - destruct (Z_lt_dec n 10).
    + rewrite str_nat_small by lia. simpl. lia.
    + rewrite str_nat_step, length_append by lia. simpl. lia.
  - rewrite Nat2Z.inj_succ, Z.pow_succ_r in Hn by lia.
    assert (0 < 10 ^ Z.of_nat k) by (apply Z.pow_pos_nonneg; lia).
    rewrite str_nat_step, length_append by lia.
    assert (10 ^ Z.of_nat k <= n / 10) by (apply Z.div_le_lower_bound; lia).
    specialize (IH _ H0). simpl. lia.
Qed.

(** Among the non-negative numbers, exactly those from 1000 to 9999 print
    as four characters. *)
Lemma length_str_4_iff (n : Z) :
  0 <= n -> String.length (str n) = 4%nat <-> 1000 <= n <= 9999.
Proof.
  intros Hn. split; [|apply length_str_4].
  intros Hlen. rewrite str_nonneg in Hlen by lia.
  destruct (Z_lt_dec n 1000) as [Hlt|Hge].
  - exfalso.
    destruct (Z_lt_dec n 10); [rewrite str_nat_small in Hlen by lia; discriminate|].
    destruct (Z_lt_dec n 100).
    { rewrite (length_str_nat 1) in Hlen by (simpl; lia). discriminate. }
    rewrite (length_str_nat 2) in Hlen by (simpl; lia). discriminate.
  - split; [lia|].
    destruct (Z_le_gt_dec n 9999) as [|Hbig]; [assumption|exfalso].
    pose proof (length_str_nat_lower 4 n) as Hlow.
    simpl in Hlow. lia.
Qed.

End Decimal.

(** ** The formatted string *)

Section Format.

Lemma length_pad2 (n : Z) : 0 <= n < 100 -> String.length (pad2 n) = 2%nat.
Proof.
  intros Hn. unfold pad2. destruct (Z.ltb_spec n 10).
  - rewrite length_append, length_str_digit by lia. reflexivity.
  - apply length_str_2. lia.
Qed.

Lemma length_yyyymmdd (year month0 day : Z) :
  0 <= month0 <= 11 -> 1 <= day <= 31 ->
  String.length (yyyymmdd year month0 day) = (String.length (str year) + 4)%nat.
Proof.
  intros Hm Hd. unfold yyyymmdd.
  rewrite !length_append, !length_pad2 by lia. lia.
Qed.

(** With a four-character year, the month field sits at characters 5-6,
    whatever follows it. *)
Lemma month_field_yyyymmdd (year month0 day : Z) :
  1000 <= year <= 9999 -> 0 <= month0 <= 11 ->
  chars2 5 (yyyymmdd year month0 day) = pad2 (month0 + 1).
Proof.
  intros Hy Hm. unfold yyyymmdd.
  destruct (length_4_inv (str year)) as (a & b & c & d & ->);
    [now apply length_str_4|].
  destruct (length_2_inv (pad2 (month0 + 1))) as (m1 & m2 & ->);
    [apply length_pad2; lia|].
  generalize (pad2 day). intros rest. destruct rest; reflexivity.
Qed.

(** With a four-character year and a two-character month, the day field
    sits at characters 7-8. *)
Lemma day_field_yyyymmdd (year month0 day : Z) :
  1000 <= year <= 9999 -> 0 <= month0 <= 11 -> 1 <= day <= 31 ->
  chars2 7 (yyyymmdd year month0 day) = pad2 day.
Proof.
  intros Hy Hm Hd. unfold yyyymmdd.
  destruct (length_4_inv (str year)) as (a & b & c & d & ->);
    [now apply length_str_4|].
  destruct (length_2_inv (pad2 (month0 + 1))) as (m1 & m2 & ->);
    [apply length_pad2; lia|].
  destruct (length_2_inv (pad2 day)) as (d1 & d2 & ->);
    [apply length_pad2; lia|].
  reflexivity.
Qed.

End Format.

(** ** Running the [date] property *)

Section Accessor.
Context {G : Type} {T : Toolkit G}.

(** One run of [date] when the widget answers [(year, month0, day)]: the
    result is the formatted string; a log record and the [get_date] call
    are the only traces left. *)
Lemma date_run (st : state G) (c : loc) (year month0 day : Z) (g' : G) :
  self st !! "calendar"%string = Some (VObj c) ->
  get_date c (gui st) = (Ok (year, month0, day), g') ->
  Calendar.date st =
    (Ok (yyyymmdd year month0 day),
     State g' (log st ++ [msg_query]) (self st) (trace st ++ [EGetDate c])).
Proof.
  intros Hc Hd.
  unfold Calendar.date, mbind, M_bind, bind, logging_debug, getattr, invoke.
  simpl. rewrite Hc. simpl. rewrite Hd. simpl.
  unfold yyyymmdd, pad2.
  destruct (month0 + 1 <? 10), (day <? 10); reflexivity.
Qed.

Lemma date_selected (st : state G) (year month0 day : Z) :
  selected st (year, month0, day) ->
  exists c, self st !! "calendar"%string = Some (VObj c) /\
    Calendar.date st =
      (Ok (yyyymmdd year month0 day),
       State (gui st) (log st ++ [msg_query]) (self st) (trace st ++ [EGetDate c])).
Proof.
  intros (c & Hc & Hd). exists c. split; [assumption|].
  now apply date_run.
Qed.

Lemma date_value (st : state G) (year month0 day : Z) :
  selected st (year, month0, day) ->
  fst (Calendar.date st) = Ok (yyyymmdd year month0 day).
Proof.
  intros Hsel. destruct (date_selected _ _ _ _ Hsel) as (c & _ & ->). reflexivity.
Qed.

(** [date] preserves what the widget holds. *)
Lemma date_keeps_selected (st : state G) (sel : Z * Z * Z) :
  selected st sel -> selected (snd (Calendar.date st)) sel.
Proof.
  destruct sel as [[year month0] day]. intros Hsel.
  destruct (date_selected _ _ _ _ Hsel) as (c & Hc & ->).
  destruct Hsel as (c' & Hc' & Hd). exists c'. simpl. auto.
Qed.

End Accessor.

(** The reference toolkit's calendar answers its selection. *)
Lemma gtk_selected (st : state Gtk.gtk) (c : loc) (year month0 day : Z) (visible : bool) :
  self st !! "calendar"%string = Some (VObj c) ->
  Gtk.heap (gui st) !! c = Some (Gtk.CalendarWidget year month0 day visible) ->
  selected st (year, month0, day).
Proof.
  intros Hc Hw. exists c. split; [assumption|].
  simpl. unfold Gtk.calendar_get_date. now rewrite Hw.
Qed.

Lemma showing_selected (year month0 day : Z) :
  selected (Gtk.showing year month0 day) (year, month0, day).
Proof.
  apply (gtk_selected _ 3%positive _ _ _ true); reflexivity.
Qed.

(** ** The date string *)

Section DateString.
Context {G : Type} {T : Toolkit G}.

(** C1. For every selection [(year, month0, day)] with [month0] in [0,11]
    and [day] in [1,31], [date] returns [str(year)] (unpadded), followed by
    the 1-indexed month [month0 + 1], zero-padded to two characters when it
    is less than 10, followed by [day], zero-padded likewise. *)
Theorem date_concatenates_padded_fields (st : state G) (year month0 day : Z) :
  selected st (year, month0, day) ->
  0 <= month0 <= 11 -> 1 <= day <= 31 ->
  fst (Calendar.date st) = Ok (str year +:+ pad2 (month0 + 1) +:+ pad2 day) /\
  String.length (pad2 (month0 + 1)) = 2%nat /\
  String.length (pad2 day) = 2%nat.
Proof.
  intros Hsel Hm Hd. split; [|split].
  - now apply date_value.
  - apply length_pad2. lia.
  - apply length_pad2. lia.
Qed.

(** C2. For every selection with a 4-digit [year], [month0] in [0,11] and
    [day] in [1,31], the string returned by [date] has length exactly 8. *)
Theorem date_length_8 (st : state G) (year month0 day : Z) :
  selected st (year, month0, day) ->
  1000 <= year <= 9999 -> 0 <= month0 <= 11 -> 1 <= day <= 31 ->
  exists s, fst (Calendar.date st) = Ok s /\ String.length s = 8%nat.
Proof.
  intros Hsel Hy Hm Hd. exists (yyyymmdd year month0 day). split.
  - now apply date_value.
  - rewrite length_yyyymmdd, length_str_4 by lia. reflexivity.
Qed.

(** C3 (amended). For every selection with a 4-digit [year] and [month0]
    in [0,11]: if [month0 + 1 < 10] then the 5th and 6th characters of the
    string returned by [date] are ["0"] followed by [str(month0 + 1)],
    otherwise they are [str(month0 + 1)]. *)
Theorem date_month_chars (st : state G) (year month0 day : Z) :
  selected st (year, month0, day) ->
  1000 <= year <= 9999 -> 0 <= month0 <= 11 ->
  exists s, fst (Calendar.date st) = Ok s /\
    (month0 + 1 < 10 -> chars2 5 s = "0" +:+ str (month0 + 1)) /\
    (~ month0 + 1 < 10 -> chars2 5 s = str (month0 + 1)).
Proof.
  intros Hsel Hy Hm. exists (yyyymmdd year month0 day).
  split; [now apply date_value|].
  rewrite (month_field_yyyymmdd year month0 day Hy Hm).
  unfold pad2. destruct (Z.ltb_spec (month0 + 1) 10); split; intros; (reflexivity || lia).
Qed.

(** C4 (amended). For every selection with a 4-digit [year], [month0] in
    [0,11] and [day] in [1,31]: if [day < 10] then the 7th and 8th
    characters of the string returned by [date] are ["0"] followed by
    [str(day)], otherwise they are [str(day)]. *)
Theorem date_day_chars (st : state G) (year month0 day : Z) :
  selected st (year, month0, day) ->
  1000 <= year <= 9999 -> 0 <= month0 <= 11 -> 1 <= day <= 31 ->
  exists s, fst (Calendar.date st) = Ok s /\
    (day < 10 -> chars2 7 s = "0" +:+ str day) /\
    (~ day < 10 -> chars2 7 s = str day).
Proof.
  intros Hsel Hy Hm Hd. exists (yyyymmdd year month0 day).
  split; [now apply date_value|].
  rewrite (day_field_yyyymmdd year month0 day Hy Hm Hd).
  unfold pad2. destruct (Z.ltb_spec day 10); split; intros; (reflexivity || lia).
Qed.

(** C5. On the selections [(2017, 2, 5)], [(2020, 11, 31)], [(1999, 0, 1)]
    and [(2005, 9, 9)], [date] returns exactly ["20170305"], ["20201231"],
    ["19990101"] and ["20051009"]. *)
Theorem date_concrete_cases (st : state G) :
  (selected st (2017, 2, 5) -> fst (Calendar.date st) = Ok "20170305"%string) /\
  (selected st (2020, 11, 31) -> fst (Calendar.date st) = Ok "20201231"%string) /\
  (selected st (1999, 0, 1) -> fst (Calendar.date st) = Ok "19990101"%string) /\
  (selected st (2005, 9, 9) -> fst (Calendar.date st) = Ok "20051009"%string).
Proof.
  repeat split; intros Hsel; rewrite (date_value _ _ _ _ Hsel); reflexivity.
Qed.

(** C6. With no selection change in between, two successive calls of
    [date] return the identical string. *)
Theorem date_twice_same (st : state G) (sel : Z * Z * Z) :
  selected st sel ->
  exists s, fst (Calendar.date st) = Ok s /\
            fst (Calendar.date (snd (Calendar.date st))) = Ok s.
Proof.
  intros Hsel. pose proof (date_keeps_selected _ _ Hsel) as Hsel'.
  destruct sel as [[year month0] day].
  exists (yyyymmdd year month0 day). split; now apply date_value.
Qed.

(** C7. [date] is a pure read: the toolkit's objects (the calendar widget
    with its selection, the dialog) and the instance's attributes are left
    as they were, the only records left behind being one line in the debug
    log and the [get_date] call in the call history; and the instance keeps
    no copy of the selection, since with the same attributes a later call
    answers whatever the widget holds by then. *)
Theorem date_pure_read (st : state G) (sel : Z * Z * Z) :
  selected st sel ->
  let st' := snd (Calendar.date st) in
  gui st' = gui st /\
  self st' = self st /\
  selected st' sel /\
  log st' = log st ++ [msg_query] /\
  (exists c, self st !! "calendar"%string = Some (VObj c) /\
             trace st' = trace st ++ [EGetDate c]) /\
  forall (st2 : state G) (year month0 day : Z),
    self st2 = self st' ->
    selected st2 (year, month0, day) ->
    fst (Calendar.date st2) = Ok (yyyymmdd year month0 day).
Proof.
  intros Hsel st'. pose proof (date_keeps_selected _ _ Hsel) as Hsel'.
  destruct sel as [[year month0] day].
  destruct (date_selected _ _ _ _ Hsel) as (c & Hc & Hrun).
  subst st'. rewrite Hrun in *. simpl.
  repeat split; try assumption.
  - exists c. auto.
  - intros st2 y m d _ Hsel2. now apply date_value.
Qed.

(** C8. On an instance whose widget holds a valid date ([month0] in [0,11],
    [day] in [1,31]), [date] does not raise: it returns a string. *)
Theorem date_never_raises (st : state G) (year month0 day : Z) :
  selected st (year, month0, day) ->
  0 <= month0 <= 11 -> 1 <= day <= 31 ->
  (exists s : string, fst (Calendar.date st) = Ok s) /\
  (forall e : exn, fst (Calendar.date st) <> Raised e).
Proof.
  intros Hsel _ _. rewrite (date_value _ _ _ _ Hsel). split; [eauto|discriminate].
Qed.

(** C10. For every selection with [month0] in [0,11], [day] in [1,31] and a
    non-negative [year] of any magnitude, the string returned by [date] has
    length [len(str(year)) + 4]; so it has length 8 only for a year from
    1000 to 9999, whose decimal representation has exactly 4 digits. *)
Theorem date_length_follows_year (st : state G) (year month0 day : Z) :
  selected st (year, month0, day) ->
  0 <= year -> 0 <= month0 <= 11 -> 1 <= day <= 31 ->
  exists s, fst (Calendar.date st) = Ok s /\
    String.length s = (String.length (str year) + 4)%nat /\
    (String.length (str year) <> 4%nat -> String.length s <> 8%nat) /\
    (~ 1000 <= year <= 9999 -> String.length s <> 8%nat).
Proof.
  intros Hsel Hy Hm Hd. exists (yyyymmdd year month0 day).
  split; [now apply date_value|].
  pose proof (length_yyyymmdd year month0 day Hm Hd) as Hlen.
  pose proof (length_str_4_iff year Hy) as Hiff.
  repeat split; try assumption; intros Hne Habs.
  - lia.
  - apply Hne, Hiff. lia.
Qed.

End DateString.

(** ** The constructor *)

Section Constructor.
Context {G : Type} {T : Toolkit G}.
Variable module_dir : string.

Let path : string := module_dir +:+ "/glade/pyqso.glade".
Let names : list string := ["calendar_dialog"%string].

(** C9. A failure of the builder during construction reaches the caller as
    it was raised, whether it is the resource load or either of the two
    named-object lookups that fails; the constructor makes no further call
    to the toolkit after the failing one (in particular it does not repeat
    it), completes no later step, and the exception is the builder's own. *)
Theorem init_failure_propagates (st : state G) (b : loc) (e : exn) :
  (forall g1,
     add_objects_from_file b path names (gui st) = (Raised e, g1) ->
     Calendar.new module_dir (VObj b) st =
       (Raised e,
        State g1 (log st ++ [msg_setup])
          (<["builder"%string := VObj b]> ∅)
          (trace st ++ [EAddObjectsFromFile b path names]))) /\
  (forall n g1 g2,
     add_objects_from_file b path names (gui st) = (Ok n, g1) ->
     get_object b "calendar_dialog" g1 = (Raised e, g2) ->
     Calendar.new module_dir (VObj b) st =
       (Raised e,
        State g2 (log st ++ [msg_setup])
          (<["builder"%string := VObj b]> ∅)
          (trace st ++ [EAddObjectsFromFile b path names]
                    ++ [EGetObject b "calendar_dialog"]))) /\
  (forall n d g1 g2 g3,
     add_objects_from_file b path names (gui st) = (Ok n, g1) ->
     get_object b "calendar_dialog" g1 = (Ok d, g2) ->
     get_object b "calendar" g2 = (Raised e, g3) ->
     Calendar.new module_dir (VObj b) st =
       (Raised e,
        State g3 (log st ++ [msg_setup])
          (<["dialog"%string := d]> (<["builder"%string := VObj b]> ∅))
          (trace st ++ [EAddObjectsFromFile b path names]
                    ++ [EGetObject b "calendar_dialog"]
                    ++ [EGetObject b "calendar"]))).
Proof.
  assert (Hb : (<["builder"%string := VObj b]> ∅ : gmap string value) !! "builder"%string
               = Some (VObj b)) by apply lookup_insert_eq.
  assert (Hbd : forall d : value,
             (<["dialog"%string := d]> (<["builder"%string := VObj b]> ∅) : gmap string value)
               !! "builder"%string = Some (VObj b)).
  { intros d. rewrite lookup_insert_ne by discriminate. exact Hb. }
  unfold Calendar.new, Calendar.__init__, mbind, M_bind, bind,
    logging_debug, setattr, getattr, invoke.
  fold path names.
  split; [|split]; intros; simpl.
  - rewrite Hb. simpl. rewrite H. reflexivity.
  - rewrite Hb. simpl. rewrite H. simpl. rewrite Hb. simpl. rewrite H0.
    now rewrite <- app_assoc.
  - rewrite Hb. simpl. rewrite H. simpl. rewrite Hb. simpl. rewrite H0. simpl.
    rewrite Hbd. simpl. rewrite H1.
    now rewrite <- !app_assoc.
Qed.

End Constructor.

(** ** Concrete runs on the reference toolkit *)

Example new_installed :
  Calendar.new "/usr/lib/pyqso" (VObj 1) Gtk.installed =
    (Ok tt,
     State
       (Gtk.Make
          {[ 1%positive := Gtk.Builder {[ "calendar_dialog"%string := 2%positive;
                                          "calendar"%string := 3%positive ]};
             2%positive := Gtk.Dialog true [3%positive];
             3%positive := Gtk.CalendarWidget 2017 0 1 true ]}
          (Gtk.disk (gui Gtk.installed)))
       [msg_setup; msg_ready]
       {[ "builder"%string := VObj 1; "dialog"%string := VObj 2;
          "calendar"%string := VObj 3 ]}
       [EAddObjectsFromFile 1 "/usr/lib/pyqso/glade/pyqso.glade" ["calendar_dialog"%string];
        EGetObject 1 "calendar_dialog"; EGetObject 1 "calendar"; EShowAll 2]).
Proof. vm_compute. reflexivity. Qed.

(** With the reference builder, whose lookups answer [None] for an unknown
    name, a layout without a [calendar] widget still constructs; the
    missing widget shows only when [date] is read. *)
Example new_without_calendar :
  fst (Calendar.new "/usr/lib/pyqso" (VObj 1) bare_install) = Ok tt /\
  fst (Calendar.date (snd (Calendar.new "/usr/lib/pyqso" (VObj 1) bare_install))) =
    Raised (Exn "AttributeError" "'NoneType' object has no attribute 'get_date'").
Proof. split; vm_compute; reflexivity. Qed.

Lemma date_concatenates_padded_fields_witness :
  selected (Gtk.showing 2017 2 5) (2017, 2, 5) /\
  fst (Calendar.date (Gtk.showing 2017 2 5)) = Ok (str 2017 +:+ pad2 (2 + 1) +:+ pad2 5) /\
  String.length (pad2 (2 + 1)) = 2%nat /\
  String.length (pad2 5) = 2%nat.
Proof.
  split; [apply showing_selected|].
  apply (date_concatenates_padded_fields (Gtk.showing 2017 2 5) 2017 2 5);
    [apply showing_selected | lia | lia].
Defined.

Lemma date_length_8_witness :
  selected (Gtk.showing 2020 11 31) (2020, 11, 31) /\
  exists s, fst (Calendar.date (Gtk.showing 2020 11 31)) = Ok s /\ String.length s = 8%nat.
Proof.
  split; [apply showing_selected|].
  apply (date_length_8 (Gtk.showing 2020 11 31) 2020 11 31);
    [apply showing_selected | lia | lia | lia].
Defined.

Lemma date_month_chars_witness :
  selected (Gtk.showing 2017 2 5) (2017, 2, 5) /\
  exists s, fst (Calendar.date (Gtk.showing 2017 2 5)) = Ok s /\
    (2 + 1 < 10 -> chars2 5 s = "0" +:+ str (2 + 1)) /\
    (~ 2 + 1 < 10 -> chars2 5 s = str (2 + 1)).
Proof.
  split; [apply showing_selected|].
  apply (date_month_chars (Gtk.showing 2017 2 5) 2017 2 5);
    [apply showing_selected | lia | lia].
Defined.

Lemma date_day_chars_witness :
  selected (Gtk.showing 2020 11 31) (2020, 11, 31) /\
  exists s, fst (Calendar.date (Gtk.showing 2020 11 31)) = Ok s /\
    (31 < 10 -> chars2 7 s = "0" +:+ str 31) /\
    (~ 31 < 10 -> chars2 7 s = str 31).
Proof.
  split; [apply showing_selected|].
  apply (date_day_chars (Gtk.showing 2020 11 31) 2020 11 31);
    [apply showing_selected | lia | lia | lia].
Defined.

(** C3 as stated, for every year: with the year 99 the string is
    ["990305"], whose 5th and 6th characters are the day field, not the
    month field. *)
Lemma date_month_chars_short_year :
  selected (Gtk.showing 99 2 5) (99, 2, 5) /\
  0 <= 2 <= 11 /\ 2 + 1 < 10 /\
  fst (Calendar.date (Gtk.showing 99 2 5)) = Ok "990305"%string /\
  chars2 5 "990305" = "05"%string /\
  chars2 5 "990305" <> "0" +:+ str (2 + 1).
Proof.
  split; [apply showing_selected|].
  repeat split; try lia; try reflexivity.
  vm_compute. discriminate.
Qed.

(** C4 as stated, for every year: with the year 99 the string
    ["990305"] has only six characters, so there is no 7th or 8th. *)
Lemma date_day_chars_short_year :
  selected (Gtk.showing 99 2 5) (99, 2, 5) /\
  1 <= 5 <= 31 /\ 5 < 10 /\
  fst (Calendar.date (Gtk.showing 99 2 5)) = Ok "990305"%string /\
  chars2 7 "990305" = ""%string /\
  chars2 7 "990305" <> "0" +:+ str 5.
Proof.
  split; [apply showing_selected|].
  repeat split; try lia; try reflexivity.
  vm_compute. discriminate.
Qed.

(** The day field moves as well when the month field is not two
    characters wide: a month index of 99 prints as ["100"]. *)
Example date_day_chars_long_month :
  fst (Calendar.date (Gtk.showing 2017 99 5)) = Ok "201710005"%string /\
  chars2 7 "201710005" = "00"%string.
Proof. split; reflexivity. Qed.

Lemma date_concrete_cases_witness :
  fst (Calendar.date (Gtk.showing 2017 2 5)) = Ok "20170305"%string /\
  fst (Calendar.date (Gtk.showing 2020 11 31)) = Ok "20201231"%string /\
  fst (Calendar.date (Gtk.showing 1999 0 1)) = Ok "19990101"%string /\
  fst (Calendar.date (Gtk.showing 2005 9 9)) = Ok "20051009"%string.
Proof.
  split; [|split; [|split]].
  - apply (date_concrete_cases (Gtk.showing 2017 2 5)), showing_selected.
  - apply (date_concrete_cases (Gtk.showing 2020 11 31)), showing_selected.
  - apply (date_concrete_cases (Gtk.showing 1999 0 1)), showing_selected.
  - apply (date_concrete_cases (Gtk.showing 2005 9 9)), showing_selected.
Defined.

Lemma date_twice_same_witness :
  selected (Gtk.showing 2005 9 9) (2005, 9, 9) /\
  exists s, fst (Calendar.date (Gtk.showing 2005 9 9)) = Ok s /\
    fst (Calendar.date (snd (Calendar.date (Gtk.showing 2005 9 9)))) = Ok s.
Proof.
  split; [apply showing_selected|].
  apply (date_twice_same (Gtk.showing 2005 9 9) (2005, 9, 9)), showing_selected.
Defined.

Lemma date_pure_read_witness :
  selected (Gtk.showing 1999 0 1) (1999, 0, 1) /\
  gui (snd (Calendar.date (Gtk.showing 1999 0 1))) = gui (Gtk.showing 1999 0 1) /\
  self (snd (Calendar.date (Gtk.showing 1999 0 1))) = self (Gtk.showing 1999 0 1).
Proof.
  split; [apply showing_selected|].
  pose proof (date_pure_read (Gtk.showing 1999 0 1) (1999, 0, 1)
                (showing_selected 1999 0 1)) as (Hgui & Hself & _).
  split; assumption.
Defined.

Lemma date_never_raises_witness :
  selected (Gtk.showing 2017 2 5) (2017, 2, 5) /\
  (exists s : string, fst (Calendar.date (Gtk.showing 2017 2 5)) = Ok s) /\
  (forall e : exn, fst (Calendar.date (Gtk.showing 2017 2 5)) <> Raised e).
Proof.
  split; [apply showing_selected|].
  apply (date_never_raises (Gtk.showing 2017 2 5) 2017 2 5);
    [apply showing_selected | lia | lia].
Defined.

(** The constructor on a missing layout file (reference builder), on a
    layout whose dialog is registered under another name and on a layout
    without a calendar widget (builder with raising lookups). *)
Lemma init_failure_propagates_witness :
  fst (Calendar.new "/opt" (VObj 1) Gtk.installed) =
    Raised (Exn "GLib.Error" "failed to open file") /\
  fst (Calendar.new (T := Strict.toolkit) "/usr/lib/pyqso" (VObj 1) misnamed_install) =
    Raised (Exn "KeyError" "calendar_dialog") /\
  fst (Calendar.new (T := Strict.toolkit) "/usr/lib/pyqso" (VObj 1) bare_install) =
    Raised (Exn "KeyError" "calendar").
Proof.
  split; [|split].
  - destruct (init_failure_propagates (T := Gtk.toolkit) "/opt" Gtk.installed 1
                (Exn "GLib.Error" "failed to open file")) as (H1 & _ & _).
    rewrite (H1 (gui Gtk.installed)); reflexivity.
  - destruct (init_failure_propagates (T := Strict.toolkit) "/usr/lib/pyqso"
                misnamed_install 1 (Exn "KeyError" "calendar_dialog")) as (_ & H2 & _).
    erewrite H2; reflexivity.
  - destruct (init_failure_propagates (T := Strict.toolkit) "/usr/lib/pyqso"
                bare_install 1 (Exn "KeyError" "calendar")) as (_ & _ & H3).
    erewrite H3; reflexivity.
Defined.

Lemma date_length_follows_year_witness :
  (exists s, fst (Calendar.date (Gtk.showing 99 2 5)) = Ok s /\
     String.length s = (String.length (str 99) + 4)%nat /\
     (String.length (str 99) <> 4%nat -> String.length s <> 8%nat) /\
     (~ 1000 <= 99 <= 9999 -> String.length s <> 8%nat)) /\
  (exists s, fst (Calendar.date (Gtk.showing 12345 2 5)) = Ok s /\
     String.length s = (String.length (str 12345) + 4)%nat /\
     (String.length (str 12345) <> 4%nat -> String.length s <> 8%nat) /\
     (~ 1000 <= 12345 <= 9999 -> String.length s <> 8%nat)).
Proof.
  split.
  - apply (date_length_follows_year (Gtk.showing 99 2 5) 99 2 5);
      [apply showing_selected | lia | lia | lia].
  - apply (date_length_follows_year (Gtk.showing 12345 2 5) 12345 2 5);
      [apply showing_selected | lia | lia | lia].
Defined.

(** * Further properties of the class *)

(** ** Every path through the constructor *)

Section ConstructorPaths.
Context {G : Type} {T : Toolkit G}.
Variable module_dir : string.

Let path : string := module_dir +:+ "/glade/pyqso.glade".
Let names : list string := ["calendar_dialog"%string].

(** The attributes bound after each assignment of [__init__]. *)
Let attrs1 (builder : value) : gmap string value := <["builder"%string := builder]> ∅.
Let attrs2 (builder d : value) : gmap string value := <["dialog"%string := d]> (attrs1 builder).
Let attrs3 (builder d c : value) : gmap string value := <["calendar"%string := c]> (attrs2 builder d).

(** The constructor, path by path. *)
Lemma new_paths (builder : value) (st : state G) :
  Calendar.new module_dir builder st =
  let log1 := log st ++ [msg_setup] in
  match builder with
  | VNone => (Raised (none_has_no "add_objects_from_file"),
              State (gui st) log1 (attrs1 VNone) (trace st))
  | VObj b =>
    let t1 := trace st ++ [EAddObjectsFromFile b path names] in
    match add_objects_from_file b path names (gui st) with
    | (Raised e, g1) => (Raised e, State g1 log1 (attrs1 builder) t1)
    | (Ok _, g1) =>
      let t2 := t1 ++ [EGetObject b "calendar_dialog"] in
      match get_object b "calendar_dialog" g1 with
      | (Raised e, g2) => (Raised e, State g2 log1 (attrs1 builder) t2)
      | (Ok d, g2) =>
        let t3 := t2 ++ [EGetObject b "calendar"] in
        match get_object b "calendar" g2 with
        | (Raised e, g3) => (Raised e, State g3 log1 (attrs2 builder d) t3)
        | (Ok c, g3) =>
          match d with
          | VNone => (Raised (none_has_no "show_all"),
                      State g3 log1 (attrs3 builder d c) t3)
          | VObj dl =>
            match show_all dl g3 with
            | (Raised e, g4) =>
                (Raised e, State g4 log1 (attrs3 builder d c) (t3 ++ [EShowAll dl]))
            | (Ok _, g4) =>
                (Ok tt, State g4 (log1 ++ [msg_ready]) (attrs3 builder d c)
                          (t3 ++ [EShowAll dl]))
            end
          end
        end
      end
    end
  end.
Proof.
  assert (Hb : (<["builder"%string := builder]> ∅ : gmap string value)
                 !! "builder"%string = Some builder) by apply lookup_insert_eq.
  assert (Hbd : forall d : value,
             (<["dialog"%string := d]> (<["builder"%string := builder]> ∅)
                : gmap string value) !! "builder"%string = Some builder).
  { intros d. rewrite lookup_insert_ne by discriminate. exact Hb. }
  assert (Hd : forall d c : value,
             (<["calendar"%string := c]>
                (<["dialog"%string := d]> (<["builder"%string := builder]> ∅))
                : gmap string value) !! "dialog"%string = Some d).
  { intros d c. rewrite lookup_insert_ne by discriminate. apply lookup_insert_eq. }
  unfold Calendar.new, Calendar.__init__, mbind, M_bind, bind,
    logging_debug, setattr, getattr, invoke, attrs3, attrs2, attrs1.
  fold path names. simpl.
  rewrite Hb.
  destruct builder as [|b]; [reflexivity|]. simpl.
  destruct (add_objects_from_file b path names (gui st)) as [[n|e] g1]; [|reflexivity].
  simpl. rewrite Hb. simpl.
  destruct (get_object b "calendar_dialog" g1) as [[d|e] g2]; [|reflexivity].
  simpl. rewrite Hbd. simpl.
  destruct (get_object b "calendar" g2) as [[c|e] g3]; [|reflexivity].
  simpl. rewrite Hd.
  destruct d as [|dl]; [reflexivity|]. simpl.
  destruct (show_all dl g3) as [[u|e] g4]; [|reflexivity].
  simpl. rewrite <- !app_assoc. reflexivity.
Qed.

(** X1. When the load, both lookups and [show_all] answer, and the dialog
    lookup yields an object, construction succeeds: the three attributes
    are bound to the builder passed in and to the two objects looked up,
    both debug records are logged, and the four toolkit calls were made
    once each, in source order. *)
Theorem new_succeeds (st : state G) (b d : loc) (c : value) (n : Z) (u : unit)
    (g1 g2 g3 g4 : G) :
  add_objects_from_file b path names (gui st) = (Ok n, g1) ->
  get_object b "calendar_dialog" g1 = (Ok (VObj d), g2) ->
  get_object b "calendar" g2 = (Ok c, g3) ->
  show_all d g3 = (Ok u, g4) ->
  Calendar.new module_dir (VObj b) st =
    (Ok tt,
     State g4 (log st ++ [msg_setup; msg_ready])
       (<["calendar"%string := c]>
          (<["dialog"%string := VObj d]> (<["builder"%string := VObj b]> ∅)))
       (trace st ++ [EAddObjectsFromFile b path names;
                     EGetObject b "calendar_dialog";
                     EGetObject b "calendar";
                     EShowAll d])).
Proof.
  intros H1 H2 H3 H4. rewrite new_paths. simpl.
  rewrite H1, H2, H3, H4. simpl. now rewrite <- !app_assoc.
Qed.

(** X2. Construction succeeds only that way: if the constructor returns,
    the builder passed in was an object, the load and both lookups
    answered, the dialog lookup yielded an object, and [show_all] on it
    answered; the final toolkit state is the one [show_all] left. *)
Theorem new_ok_inv (builder : value) (st st' : state G) :
  Calendar.new module_dir builder st = (Ok tt, st') ->
  exists (b d : loc) (c : value) (n : Z) (u : unit) (g1 g2 g3 : G),
    builder = VObj b /\
    add_objects_from_file b path names (gui st) = (Ok n, g1) /\
    get_object b "calendar_dialog" g1 = (Ok (VObj d), g2) /\
    get_object b "calendar" g2 = (Ok c, g3) /\
    show_all d g3 = (Ok u, gui st') /\
    self st' !! "builder"%string = Some (VObj b) /\
    self st' !! "dialog"%string = Some (VObj d) /\
    self st' !! "calendar"%string = Some c.
Proof.
  rewrite new_paths. simpl.
  destruct builder as [|b]; [discriminate|].
  destruct (add_objects_from_file b path names (gui st)) as [[n|e] g1] eqn:H1;
    [|discriminate].
  destruct (get_object b "calendar_dialog" g1) as [[d|e] g2] eqn:H2; [|discriminate].
  destruct (get_object b "calendar" g2) as [[c|e] g3] eqn:H3; [|discriminate].
  destruct d as [|dl]; [discriminate|].
  destruct (show_all dl g3) as [[u|e] g4] eqn:H4; [|discriminate].
  intros [= <-]. exists b, dl, c, n, u, g1, g2, g3. simpl.
  repeat (split; [first [reflexivity | assumption]|]).
  apply lookup_insert_eq.
Qed.

(** X3. Constructing with [None] for the builder raises [AttributeError] at
    the first method call: no toolkit call is made, the toolkit state is
    untouched and the ready record is not logged. *)
Theorem new_none_builder (st : state G) :
  Calendar.new module_dir VNone st =
    (Raised (none_has_no "add_objects_from_file"),
     State (gui st) (log st ++ [msg_setup])
       (<["builder"%string := VNone]> ∅) (trace st)).
Proof. rewrite new_paths. reflexivity. Qed.

(** X4. When the builder answers [None] for [calendar_dialog], the
    constructor still looks up [calendar] and only then raises
    [AttributeError] on [show_all]; nothing is shown. *)
Theorem new_none_dialog (st : state G) (b : loc) (c : value) (n : Z) (g1 g2 g3 : G) :
  add_objects_from_file b path names (gui st) = (Ok n, g1) ->
  get_object b "calendar_dialog" g1 = (Ok VNone, g2) ->
  get_object b "calendar" g2 = (Ok c, g3) ->
  Calendar.new module_dir (VObj b) st =
    (Raised (none_has_no "show_all"),
     State g3 (log st ++ [msg_setup])
       (<["calendar"%string := c]>
          (<["dialog"%string := VNone]> (<["builder"%string := VObj b]> ∅)))
       (trace st ++ [EAddObjectsFromFile b path names;
                     EGetObject b "calendar_dialog";
                     EGetObject b "calendar"])).
Proof.
  intros H1 H2 H3. rewrite new_paths. simpl.
  rewrite H1, H2, H3. simpl. now rewrite <- !app_assoc.
Qed.

(** X5. An exception raised by the dialog's [show_all] reaches the caller
    as it is; [show_all] was called once and the ready record is not
    logged. *)
Theorem show_all_failure_propagates (st : state G) (b d : loc) (c : value) (n : Z)
    (e : exn) (g1 g2 g3 g4 : G) :
  add_objects_from_file b path names (gui st) = (Ok n, g1) ->
  get_object b "calendar_dialog" g1 = (Ok (VObj d), g2) ->
  get_object b "calendar" g2 = (Ok c, g3) ->
  show_all d g3 = (Raised e, g4) ->
  Calendar.new module_dir (VObj b) st =
    (Raised e,
     State g4 (log st ++ [msg_setup])
       (<["calendar"%string := c]>
          (<["dialog"%string := VObj d]> (<["builder"%string := VObj b]> ∅)))
       (trace st ++ [EAddObjectsFromFile b path names;
                     EGetObject b "calendar_dialog";
                     EGetObject b "calendar";
                     EShowAll d])).
Proof.
  intros H1 H2 H3 H4. rewrite new_paths. simpl.
  rewrite H1, H2, H3, H4. simpl. now rewrite <- !app_assoc.
Qed.

(** X6. Whatever the builder and the toolkit do, the constructor logs the
    set-up record first, and the ready record exactly when it returns. *)
Theorem new_log (builder : value) (st : state G) :
  log (snd (Calendar.new module_dir builder st)) =
    match fst (Calendar.new module_dir builder st) with
    | Ok _ => log st ++ [msg_setup; msg_ready]
    | Raised _ => log st ++ [msg_setup]
    end.
Proof.
  rewrite new_paths. simpl.
  destruct builder as [|b]; [reflexivity|].
  destruct (add_objects_from_file b path names (gui st)) as [[n|e] g1]; [|reflexivity].
  destruct (get_object b "calendar_dialog" g1) as [[d|e] g2]; [|reflexivity].
  destruct (get_object b "calendar" g2) as [[c|e] g3]; [|reflexivity].
  destruct d as [|dl]; [reflexivity|].
  destruct (show_all dl g3) as [[u|e] g4]; [|reflexivity].
  simpl. now rewrite <- app_assoc.
Qed.

(** X7. Whatever happens, the toolkit calls the constructor makes are an
    initial part of: load, look up [calendar_dialog], look up [calendar],
    [show_all]. So each is made at most once, in that order, always on the
    builder passed in, and [get_date] is never called during
    construction; with [None] for the builder there is no call at all. *)
Theorem new_calls (builder : value) (st : state G) :
  exists evs : list event,
    trace (snd (Calendar.new module_dir builder st)) = trace st ++ evs /\
    (builder = VNone -> evs = []) /\
    (forall b, builder = VObj b ->
       exists d, evs `prefix_of` [EAddObjectsFromFile b path names;
                                  EGetObject b "calendar_dialog";
                                  EGetObject b "calendar";
                                  EShowAll d]).
Proof.
  rewrite new_paths. simpl.
  destruct builder as [|b].
  { exists []. simpl. rewrite app_nil_r.
    split; [reflexivity|]. split; [reflexivity|discriminate]. }
  destruct (add_objects_from_file b path names (gui st)) as [[n|e] g1].
  2:{ eexists. simpl. split; [reflexivity|]. split; [discriminate|].
      intros ? [= <-]. exists 1%positive. now eexists. }
  destruct (get_object b "calendar_dialog" g1) as [[d|e] g2].
  2:{ eexists. simpl. rewrite <- app_assoc. split; [reflexivity|].
      split; [discriminate|]. intros ? [= <-]. exists 1%positive. now eexists. }
  destruct (get_object b "calendar" g2) as [[c|e] g3].
  2:{ eexists. simpl. rewrite <- !app_assoc. split; [reflexivity|].
      split; [discriminate|]. intros ? [= <-]. exists 1%positive. now eexists. }
  destruct d as [|dl].
  { eexists. simpl. rewrite <- !app_assoc. split; [reflexivity|].
    split; [discriminate|]. intros ? [= <-]. exists 1%positive. now eexists. }
  destruct (show_all dl g3) as [[u|e] g4];
    (eexists; simpl; rewrite <- !app_assoc; split; [reflexivity|];
     split; [discriminate|]; intros ? [= <-]; exists dl; now exists []).
Qed.

End ConstructorPaths.

(** ** Every path through [date] *)

Section AccessorPaths.
Context {G : Type} {T : Toolkit G}.

(** The property, path by path. *)
Lemma date_paths (st : state G) :
  Calendar.date st =
  let log1 := log st ++ [msg_query] in
  match self st !! "calendar"%string with
  | None => (Raised (no_such_attribute "calendar"),
             State (gui st) log1 (self st) (trace st))
  | Some VNone => (Raised (none_has_no "get_date"),
                   State (gui st) log1 (self st) (trace st))
  | Some (VObj c) =>
      match get_date c (gui st) with
      | (Ok (year, month0, day), g') =>
          (Ok (yyyymmdd year month0 day),
           State g' log1 (self st) (trace st ++ [EGetDate c]))
      | (Raised e, g') =>
          (Raised e, State g' log1 (self st) (trace st ++ [EGetDate c]))
      end
  end.
Proof.
  unfold Calendar.date, mbind, M_bind, bind, logging_debug, getattr, invoke.
  simpl.
  destruct (self st !! "calendar"%string) as [[|c]|]; try reflexivity.
  simpl. destruct (get_date c (gui st)) as [[[[year month0] day]|e] g'];
    [|reflexivity].
  simpl. unfold yyyymmdd, pad2.
  destruct (month0 + 1 <? 10), (day <? 10); reflexivity.
Qed.

(** X8. An exception raised by the widget's [get_date] reaches the caller
    of [date] as it is; the attributes are untouched and [get_date] was
    called once. *)
Theorem date_failure_propagates (st : state G) (c : loc) (e : exn) (g' : G) :
  self st !! "calendar"%string = Some (VObj c) ->
  get_date c (gui st) = (Raised e, g') ->
  Calendar.date st =
    (Raised e,
     State g' (log st ++ [msg_query]) (self st) (trace st ++ [EGetDate c])).
Proof.
  intros Hc Hd. rewrite date_paths, Hc, Hd. reflexivity.
Qed.

(** X9. Whenever [date] returns a string, the [calendar] attribute is bound
    to an object, its [get_date] answered some [(year, month0, day)], and
    the string is [str(year)] followed by the padded [month0 + 1] and the
    padded [day]: no other string is ever returned. *)
Theorem date_ok_inv (st : state G) (s : string) :
  fst (Calendar.date st) = Ok s ->
  exists (c : loc) (year month0 day : Z) (g' : G),
    self st !! "calendar"%string = Some (VObj c) /\
    get_date c (gui st) = (Ok (year, month0, day), g') /\
    s = str year +:+ pad2 (month0 + 1) +:+ pad2 day.
Proof.
  rewrite date_paths. simpl.
  destruct (self st !! "calendar"%string) as [[|c]|]; try discriminate.
  destruct (get_date c (gui st)) as [[[[year month0] day]|e] g'] eqn:Hd;
    [|discriminate].
  simpl. intros [= <-]. exists c, year, month0, day, g'. auto.
Qed.

(** X10. Without a calendar widget, whether the [calendar] attribute is
    unbound or bound to [None], [date] raises [AttributeError], calls
    nothing in the toolkit and leaves its state as it is. *)
Theorem date_without_widget (st : state G) :
  (self st !! "calendar"%string = None ->
   Calendar.date st =
     (Raised (no_such_attribute "calendar"),
      State (gui st) (log st ++ [msg_query]) (self st) (trace st))) /\
  (self st !! "calendar"%string = Some VNone ->
   Calendar.date st =
     (Raised (none_has_no "get_date"),
      State (gui st) (log st ++ [msg_query]) (self st) (trace st))).
Proof.
  split; intros Hc; rewrite date_paths, Hc; reflexivity.
Qed.

(** X11. On every path, returning or raising, [date] leaves the instance's
    attributes as they are, logs exactly one record, and touches the
    toolkit through at most one call, [get_date] on the object the
    [calendar] attribute is bound to. *)
Theorem date_frame (st : state G) :
  let st' := snd (Calendar.date st) in
  self st' = self st /\
  log st' = log st ++ [msg_query] /\
  ((trace st' = trace st /\ gui st' = gui st) \/
   (exists c, self st !! "calendar"%string = Some (VObj c) /\
              trace st' = trace st ++ [EGetDate c] /\
              gui st' = snd (get_date c (gui st)))).
Proof.
  rewrite date_paths. simpl.
  destruct (self st !! "calendar"%string) as [[|c]|] eqn:Hc; simpl; auto.
  repeat split; try reflexivity.
  - now destruct (get_date c (gui st)) as [[[[year month0] day]|e] g'].
  - now destruct (get_date c (gui st)) as [[[[year month0] day]|e] g'].
  - right. exists c. split; [reflexivity|].
    now destruct (get_date c (gui st)) as [[[[year month0] day]|e] g'].
Qed.

(** ** The constructor followed by [date] *)

Variable module_dir : string.

Let path : string := module_dir +:+ "/glade/pyqso.glade".
Let names : list string := ["calendar_dialog"%string].

(** X12. After a successful construction, [date] queries the very object
    the builder returned for the name [calendar] and formats its answer. *)
Theorem new_then_date (st : state G) (b d c : loc) (n : Z) (u : unit)
    (g1 g2 g3 g4 g5 : G) (year month0 day : Z) :
  add_objects_from_file b path names (gui st) = (Ok n, g1) ->
  get_object b "calendar_dialog" g1 = (Ok (VObj d), g2) ->
  get_object b "calendar" g2 = (Ok (VObj c), g3) ->
  show_all d g3 = (Ok u, g4) ->
  get_date c g4 = (Ok (year, month0, day), g5) ->
  fst (Calendar.new module_dir (VObj b) st) = Ok tt /\
  fst (Calendar.date (snd (Calendar.new module_dir (VObj b) st))) =
    Ok (str year +:+ pad2 (month0 + 1) +:+ pad2 day) /\
  trace (snd (Calendar.date (snd (Calendar.new module_dir (VObj b) st)))) =
    trace st ++ [EAddObjectsFromFile b path names;
                 EGetObject b "calendar_dialog";
                 EGetObject b "calendar";
                 EShowAll d;
                 EGetDate c].
Proof.
  intros H1 H2 H3 H4 H5.
  rewrite new_paths. fold path names. simpl. rewrite H1, H2, H3, H4.
  simpl. split; [reflexivity|].
  rewrite date_paths. simpl. rewrite lookup_insert_eq, H5. simpl.
  split; [reflexivity|]. now rewrite <- !app_assoc.
Qed.

(** X13. When the builder answers [None] for [calendar] (and everything
    else answers), construction succeeds all the same; the missing widget
    surfaces only later, as an [AttributeError] from [date]. *)
Theorem new_none_calendar (st : state G) (b d : loc) (n : Z) (u : unit)
    (g1 g2 g3 g4 : G) :
  add_objects_from_file b path names (gui st) = (Ok n, g1) ->
  get_object b "calendar_dialog" g1 = (Ok (VObj d), g2) ->
  get_object b "calendar" g2 = (Ok VNone, g3) ->
  show_all d g3 = (Ok u, g4) ->
  fst (Calendar.new module_dir (VObj b) st) = Ok tt /\
  fst (Calendar.date (snd (Calendar.new module_dir (VObj b) st))) =
    Raised (none_has_no "get_date").
Proof.
  intros H1 H2 H3 H4.
  rewrite new_paths. fold path names. simpl. rewrite H1, H2, H3, H4.
  simpl. split; [reflexivity|].
  rewrite date_paths. simpl. now rewrite lookup_insert_eq.
Qed.

End AccessorPaths.

(** ** Digits of the date string *)

Section Digits.

Lemma digit_char_spec (d : Z) :
  0 <= d < 10 -> is_digit (digit_char d) = true /\ digit_value (digit_char d) = d.
Proof.
  intros Hd.
  assert (Hcases : d = 0 \/ d = 1 \/ d = 2 \/ d = 3 \/ d = 4 \/ d = 5 \/ d = 6 \/
                   d = 7 \/ d = 8 \/ d = 9) by lia.
  repeat (destruct Hcases as [->|Hcases]; [split; reflexivity|]).
  subst d. split; reflexivity.
Qed.

Lemma is_digit_value (a : ascii) : is_digit a = true -> 0 <= digit_value a < 10.
Proof.
  unfold is_digit, digit_value. intros H.
  apply andb_true_iff in H as [H1 H2].
  apply Nat.leb_le in H1, H2. lia.
Qed.

Lemma all_digits_append (s t : string) :
  all_digits (s +:+ t) = (all_digits s && all_digits t)%bool.
Proof.
  induction s as [|a s IH]; [reflexivity|].
  rewrite append_cons. simpl. rewrite IH. now rewrite andb_assoc.
Qed.

Lemma int_digits_append (acc : Z) (s t : string) :
  int_digits acc (s +:+ t) = int_digits (int_digits acc s) t.
Proof.
  revert acc. induction s as [|a s IH]; intros acc; [reflexivity|].
  rewrite append_cons. simpl. apply IH.
Qed.

(** Digits read after [acc] shift it left by their number. *)
Lemma int_digits_shift (acc : Z) (s : string) :
  int_digits acc s = acc * 10 ^ Z.of_nat (String.length s) + int_digits 0 s.
Proof.
  revert acc. induction s as [|a s IH]; intros acc.
  - simpl. lia.
  - cbn [int_digits String.length]. rewrite IH, (IH (0 * 10 + digit_value a)).
    rewrite Nat2Z.inj_succ, Z.pow_succ_r by lia. ring.
Qed.

Lemma int_digits_bound (s : string) :
  all_digits s = true -> 0 <= int_digits 0 s < 10 ^ Z.of_nat (String.length s).
Proof.
  induction s as [|a s IH]; intros Hs.
  - simpl. lia.
  - cbn [all_digits] in Hs. apply andb_true_iff in Hs as [Ha Hs].
    specialize (IH Hs). apply is_digit_value in Ha.
    cbn [int_digits String.length]. rewrite int_digits_shift.
    rewrite Nat2Z.inj_succ, Z.pow_succ_r by lia. nia.
Qed.

(** The decimal representation of a non-negative number consists of
    digits and denotes that number. *)
Lemma str_nat_digits (n : Z) :
  0 <= n -> all_digits (str_nat n) = true /\ int_digits 0 (str_nat n) = n.
Proof.
  intros Hn. generalize Hn. pattern n. apply Z_lt_induction; [|assumption].
  clear n Hn. intros n IH Hn.
  destruct (Z_lt_dec n 10) as [Hsmall|Hbig].
  - rewrite str_nat_small by assumption. cbn [all_digits int_digits].
    destruct (digit_char_spec n) as [-> ->]; [lia|]. split; [reflexivity|lia].
  - rewrite str_nat_step by lia.
    assert (Hq : 0 <= n / 10 < n) by (Z.div_mod_to_equations; lia).
    destruct (IH (n / 10) Hq) as [Hall Hval]; [lia|].
    destruct (digit_char_spec (n mod 10)) as [Hdig Hdv];
      [Z.div_mod_to_equations; lia|].
    rewrite all_digits_append, int_digits_append, Hall, Hval.
    cbn [all_digits int_digits]. rewrite Hdig, Hdv. split; [reflexivity|].
    Z.div_mod_to_equations; lia.
Qed.

Lemma str_nat_nonempty (n : Z) : str_nat n <> ""%string.
Proof.
  destruct (Z_lt_dec n 10).
  - now rewrite str_nat_small.
  - rewrite str_nat_step by lia. destruct (str_nat (n / 10)); discriminate.
Qed.

(** [int(str(n)) = n] for a non-negative [n]. *)
Lemma int_of_digits_str (n : Z) : 0 <= n -> int_of_digits (str n) = Some n.
Proof.
  intros Hn. rewrite str_nonneg by assumption.
  destruct (str_nat_digits n Hn) as [Hall Hval].
  pose proof (str_nat_nonempty n) as Hne.
  unfold int_of_digits. destruct (str_nat n) as [|a s]; [easy|].
  now rewrite Hall, Hval.
Qed.

(** A padded field of a number below 100: two digits denoting it. *)
Lemma pad2_digits (n : Z) :
  0 <= n < 100 ->
  all_digits (pad2 n) = true /\ int_digits 0 (pad2 n) = n.
Proof.
  intros Hn. unfold pad2. destruct (Z.ltb_spec n 10).
  - rewrite str_nonneg by lia.
    destruct (str_nat_digits n) as [Hall Hval]; [lia|].
    change ("0" +:+ str_nat n) with (String "0" (str_nat n)).
    cbn [all_digits int_digits].
    rewrite Hall. split; [reflexivity|].
    change (0 * 10 + digit_value "0") with 0. exact Hval.
  - rewrite str_nonneg by lia. apply str_nat_digits. lia.
Qed.

Lemma int_of_digits_pad2 (n : Z) : 0 <= n < 100 -> int_of_digits (pad2 n) = Some n.
Proof.
  intros Hn. destruct (pad2_digits n Hn) as [Hall Hval].
  destruct (length_2_inv (pad2 n)) as (a & b & Heq); [now apply length_pad2|].
  unfold int_of_digits. rewrite Heq in *. now rewrite Hall, Hval.
Qed.

(** The formatted string of a valid date with a non-negative year: all
    digits, denoting [year * 10000 + month * 100 + day]. *)
Lemma yyyymmdd_digits (year month0 day : Z) :
  0 <= year -> 0 <= month0 <= 11 -> 1 <= day <= 31 ->
  all_digits (yyyymmdd year month0 day) = true /\
  int_digits 0 (yyyymmdd year month0 day) = year * 10000 + (month0 + 1) * 100 + day.
Proof.
  intros Hy Hm Hd. unfold yyyymmdd.
  rewrite str_nonneg by assumption.
  destruct (str_nat_digits year Hy) as [Hally Hvaly].
  destruct (pad2_digits (month0 + 1)) as [Hallm Hvalm]; [lia|].
  destruct (pad2_digits day) as [Halld Hvald]; [lia|].
  rewrite !all_digits_append, !int_digits_append, Hally, Hallm, Halld, Hvaly.
  split; [reflexivity|].
  rewrite (int_digits_shift _ (pad2 day)), (int_digits_shift year).
  rewrite !length_pad2, Hvalm, Hvald by lia.
  change (10 ^ Z.of_nat 2) with 100. ring.
Qed.

Lemma yyyymmdd_nonempty (year month0 day : Z) : yyyymmdd year month0 day <> ""%string.
Proof.
  unfold yyyymmdd, str. pose proof (str_nat_nonempty year).
  destruct (year <? 0); [discriminate|].
  destruct (str_nat year); [congruence|discriminate].
Qed.

(** On digit strings of one length, the order of strings is the order of
    the numbers they denote. *)
Lemma compare_digits (s t : string) (acc : Z) :
  String.length s = String.length t ->
  all_digits s = true -> all_digits t = true ->
  String.compare s t = (int_digits acc s ?= int_digits acc t).
Proof.
  revert t acc. induction s as [|a s IH]; intros [|b t] acc Hlen Hs Ht;
    try discriminate.
  - simpl. now rewrite Z.compare_refl.
  - cbn [all_digits] in Hs, Ht.
    apply andb_true_iff in Hs as [Ha Hs]. apply andb_true_iff in Ht as [Hb Ht].
    injection Hlen as Hlen.
    cbn [String.compare int_digits].
    unfold Ascii.compare.
    destruct (N.compare_spec (N_of_ascii a) (N_of_ascii b)) as [Heq|Hlt|Hgt].
    + assert (a = b) as -> by (rewrite <- (ascii_N_embedding a),
                                 <- (ascii_N_embedding b); now f_equal).
      now apply IH.
    + symmetry. apply Z.compare_lt_iff.
      rewrite (int_digits_shift _ s), (int_digits_shift _ t), Hlen.
      pose proof (int_digits_bound s Hs) as Bs.
      pose proof (int_digits_bound t Ht) as Bt. rewrite Hlen in Bs.
      assert (digit_value a + 1 <= digit_value b)
        by (unfold digit_value, nat_of_ascii; lia).
      nia.
    + symmetry. apply Z.compare_gt_iff.
      rewrite (int_digits_shift _ s), (int_digits_shift _ t), Hlen.
      pose proof (int_digits_bound s Hs) as Bs.
      pose proof (int_digits_bound t Ht) as Bt. rewrite Hlen in Bs.
      assert (digit_value b + 1 <= digit_value a)
        by (unfold digit_value, nat_of_ascii; lia).
      nia.
Qed.

End Digits.

(** ** What the date string denotes *)

Section DateDigits.
Context {G : Type} {T : Toolkit G}.

(** X14. For a selection with a non-negative [year], [month0] in [0,11] and
    [day] in [1,31], the string returned by [date] consists of decimal
    digits only. *)
Theorem date_all_digits (st : state G) (year month0 day : Z) :
  selected st (year, month0, day) ->
  0 <= year -> 0 <= month0 <= 11 -> 1 <= day <= 31 ->
  exists s, fst (Calendar.date st) = Ok s /\ all_digits s = true.
Proof.
  intros Hsel Hy Hm Hd. exists (yyyymmdd year month0 day).
  split; [now apply date_value|].
  now apply yyyymmdd_digits.
Qed.

(** X15. Read as a decimal number, that string is
    [year * 10000 + (month0 + 1) * 100 + day]. *)
Theorem date_int_value (st : state G) (year month0 day : Z) :
  selected st (year, month0, day) ->
  0 <= year -> 0 <= month0 <= 11 -> 1 <= day <= 31 ->
  exists s, fst (Calendar.date st) = Ok s /\
    int_of_digits s = Some (year * 10000 + (month0 + 1) * 100 + day).
Proof.
  intros Hsel Hy Hm Hd. exists (yyyymmdd year month0 day).
  split; [now apply date_value|].
  destruct (yyyymmdd_digits year month0 day Hy Hm Hd) as [Hall Hval].
  pose proof (yyyymmdd_nonempty year month0 day) as Hne.
  unfold int_of_digits. destruct (yyyymmdd year month0 day); [easy|].
  now rewrite Hall, Hval.
Qed.

(** X16. Different valid selections (non-negative years) never yield the
    same string: from equal results of [date] the selections are equal. *)
Theorem date_injective (st1 st2 : state G) (y1 m1 d1 y2 m2 d2 : Z) :
  selected st1 (y1, m1, d1) -> selected st2 (y2, m2, d2) ->
  0 <= y1 -> 0 <= m1 <= 11 -> 1 <= d1 <= 31 ->
  0 <= y2 -> 0 <= m2 <= 11 -> 1 <= d2 <= 31 ->
  fst (Calendar.date st1) = fst (Calendar.date st2) ->
  (y1, m1, d1) = (y2, m2, d2).
Proof.
  intros Hs1 Hs2 Hy1 Hm1 Hd1 Hy2 Hm2 Hd2 Heq.
  rewrite (date_value _ _ _ _ Hs1), (date_value _ _ _ _ Hs2) in Heq.
  injection Heq as Heq.
  destruct (yyyymmdd_digits y1 m1 d1 Hy1 Hm1 Hd1) as [_ Hv1].
  destruct (yyyymmdd_digits y2 m2 d2 Hy2 Hm2 Hd2) as [_ Hv2].
  rewrite Heq, Hv2 in Hv1.
  assert (y1 = y2 /\ m1 = m2 /\ d1 = d2) as (-> & -> & ->) by lia.
  reflexivity.
Qed.

(** X17. For valid selections with 4-digit years, the order of the strings
    (character by character, as Python compares [str]) is the calendar
    order of the selections. *)
Theorem date_order (st1 st2 : state G) (y1 m1 d1 y2 m2 d2 : Z) :
  selected st1 (y1, m1, d1) -> selected st2 (y2, m2, d2) ->
  1000 <= y1 <= 9999 -> 0 <= m1 <= 11 -> 1 <= d1 <= 31 ->
  1000 <= y2 <= 9999 -> 0 <= m2 <= 11 -> 1 <= d2 <= 31 ->
  exists s1 s2,
    fst (Calendar.date st1) = Ok s1 /\ fst (Calendar.date st2) = Ok s2 /\
    (String.ltb s1 s2 = true <-> earlier (y1, m1, d1) (y2, m2, d2)).
Proof.
  intros Hs1 Hs2 Hy1 Hm1 Hd1 Hy2 Hm2 Hd2.
  exists (yyyymmdd y1 m1 d1), (yyyymmdd y2 m2 d2).
  split; [now apply date_value|]. split; [now apply date_value|].
  destruct (yyyymmdd_digits y1 m1 d1) as [Ha1 Hv1]; [lia..|].
  destruct (yyyymmdd_digits y2 m2 d2) as [Ha2 Hv2]; [lia..|].
  unfold String.ltb.
  rewrite (compare_digits _ _ 0), Hv1, Hv2; [|
    rewrite !length_yyyymmdd, !length_str_4 by lia; reflexivity | assumption..].
  unfold earlier.
  destruct (Z.compare_spec (y1 * 10000 + (m1 + 1) * 100 + d1)
                           (y2 * 10000 + (m2 + 1) * 100 + d2));
    split; intros; (reflexivity || discriminate || lia).
Qed.

(** X18. For a valid selection with a 4-digit year, slicing the string as
    [s[0:4]], [s[4:6]], [s[6:8]] and reading each slice as a number gives
    back [year], [month0 + 1] and [day]. *)
Theorem date_slices_roundtrip (st : state G) (year month0 day : Z) :
  selected st (year, month0, day) ->
  1000 <= year <= 9999 -> 0 <= month0 <= 11 -> 1 <= day <= 31 ->
  exists s, fst (Calendar.date st) = Ok s /\
    int_of_digits (substring 0 4 s) = Some year /\
    int_of_digits (substring 4 2 s) = Some (month0 + 1) /\
    int_of_digits (substring 6 2 s) = Some day.
Proof.
  intros Hsel Hy Hm Hd. exists (yyyymmdd year month0 day).
  split; [now apply date_value|].
  pose proof (month_field_yyyymmdd year month0 day Hy Hm) as Hmf.
  pose proof (day_field_yyyymmdd year month0 day Hy Hm Hd) as Hdf.
  unfold chars2 in Hmf, Hdf. simpl in Hmf, Hdf. rewrite Hmf, Hdf.
  split; [|split; apply int_of_digits_pad2; lia].
  rewrite <- (int_of_digits_str year) by lia.
  f_equal. unfold yyyymmdd.
  destruct (length_4_inv (str year)) as (a & b & c & d & ->);
    [now apply length_str_4|].
  destruct (length_2_inv (pad2 (month0 + 1))) as (p & q & ->);
    [apply length_pad2; lia|].
  reflexivity.
Qed.

End DateDigits.

(** ** Concrete runs for the further properties *)

Lemma new_succeeds_witness :
  fst (Calendar.new "/usr/lib/pyqso" (VObj 1) Gtk.installed) = Ok tt /\
  trace (snd (Calendar.new "/usr/lib/pyqso" (VObj 1) Gtk.installed)) =
    [EAddObjectsFromFile 1 "/usr/lib/pyqso/glade/pyqso.glade" ["calendar_dialog"%string];
     EGetObject 1 "calendar_dialog"; EGetObject 1 "calendar"; EShowAll 2].
Proof.
  pose proof (new_succeeds (T := Gtk.toolkit) "/usr/lib/pyqso" Gtk.installed
                1 2 (VObj 3) 1 tt _ _ _ _ eq_refl eq_refl eq_refl eq_refl) as H.
  rewrite H. split; reflexivity.
Defined.

Lemma new_ok_inv_witness :
  exists d : loc,
    self (snd (Calendar.new "/usr/lib/pyqso" (VObj 1) Gtk.installed))
      !! "dialog"%string = Some (VObj d).
Proof.
  assert (Hrun : Calendar.new "/usr/lib/pyqso" (VObj 1) Gtk.installed =
                 (Ok tt, snd (Calendar.new "/usr/lib/pyqso" (VObj 1) Gtk.installed)))
    by (vm_compute; reflexivity).
  destruct (new_ok_inv (T := Gtk.toolkit) "/usr/lib/pyqso" (VObj 1) Gtk.installed
              (snd (Calendar.new "/usr/lib/pyqso" (VObj 1) Gtk.installed)) Hrun)
    as (b & d & c & n & u & g1 & g2 & g3 & _ & _ & _ & _ & _ & _ & Hd & _).
  exists d. exact Hd.
Defined.

Lemma new_none_dialog_witness :
  fst (Calendar.new "/usr/lib/pyqso" (VObj 1) misnamed_install) =
    Raised (Exn "AttributeError" "'NoneType' object has no attribute 'show_all'").
Proof.
  pose proof (new_none_dialog (T := Gtk.toolkit) "/usr/lib/pyqso" misnamed_install
                1 VNone 1 _ _ _ eq_refl eq_refl eq_refl) as H.
  rewrite H. reflexivity.
Defined.

Lemma show_all_failure_propagates_witness :
  fst (Calendar.new "/usr/lib/pyqso" (VObj 1) unshowable_install) =
    Raised (Exn "AttributeError" "object has no attribute 'show_all'").
Proof.
  pose proof (show_all_failure_propagates (T := Gtk.toolkit) "/usr/lib/pyqso"
                unshowable_install 1 2 (VObj 3) 1
                (Exn "AttributeError" "object has no attribute 'show_all'")
                _ _ _ _ eq_refl eq_refl eq_refl eq_refl) as H.
  rewrite H. reflexivity.
Defined.

Lemma date_failure_propagates_witness :
  fst (Calendar.date (snd (Calendar.new "/usr/lib/pyqso" (VObj 1) dateless_install))) =
    Raised (Exn "AttributeError" "object has no attribute 'get_date'").
Proof.
  pose proof (date_failure_propagates (T := Gtk.toolkit)
                (snd (Calendar.new "/usr/lib/pyqso" (VObj 1) dateless_install)) 3
                (Exn "AttributeError" "object has no attribute 'get_date'")
                _ eq_refl eq_refl) as H.
  rewrite H. reflexivity.
Defined.

Lemma date_ok_inv_witness :
  exists (c : loc) (year month0 day : Z) (g' : Gtk.gtk),
    self (Gtk.showing 2017 2 5) !! "calendar"%string = Some (VObj c) /\
    get_date c (gui (Gtk.showing 2017 2 5)) = (Ok (year, month0, day), g') /\
    "20170305"%string = str year +:+ pad2 (month0 + 1) +:+ pad2 day.
Proof.
  apply (date_ok_inv (T := Gtk.toolkit) (Gtk.showing 2017 2 5) "20170305").
  reflexivity.
Defined.

Lemma date_without_widget_witness :
  fst (Calendar.date Gtk.installed) =
    Raised (Exn "AttributeError" "'Calendar' object has no attribute 'calendar'") /\
  fst (Calendar.date (snd (Calendar.new "/usr/lib/pyqso" (VObj 1) bare_install))) =
    Raised (Exn "AttributeError" "'NoneType' object has no attribute 'get_date'").
Proof.
  split.
  - destruct (date_without_widget (T := Gtk.toolkit) Gtk.installed) as [H _].
    rewrite (H eq_refl). reflexivity.
  - destruct (date_without_widget (T := Gtk.toolkit)
                (snd (Calendar.new "/usr/lib/pyqso" (VObj 1) bare_install))) as [_ H].
    rewrite (H eq_refl). reflexivity.
Defined.

Lemma new_then_date_witness :
  fst (Calendar.date (snd (Calendar.new "/usr/lib/pyqso" (VObj 1) Gtk.installed))) =
    Ok "20170101"%string.
Proof.
  destruct (new_then_date (T := Gtk.toolkit) "/usr/lib/pyqso" Gtk.installed
              1 2 3 1 tt _ _ _ _ _ 2017 0 1
              eq_refl eq_refl eq_refl eq_refl eq_refl) as (_ & H & _).
  rewrite H. reflexivity.
Defined.

Lemma new_none_calendar_witness :
  fst (Calendar.new "/usr/lib/pyqso" (VObj 1) bare_install) = Ok tt /\
  fst (Calendar.date (snd (Calendar.new "/usr/lib/pyqso" (VObj 1) bare_install))) =
    Raised (Exn "AttributeError" "'NoneType' object has no attribute 'get_date'").
Proof.
  apply (new_none_calendar (T := Gtk.toolkit) "/usr/lib/pyqso" bare_install
           1 2 1 tt _ _ _ _ eq_refl eq_refl eq_refl eq_refl).
Defined.

Lemma date_all_digits_witness :
  exists s, fst (Calendar.date (Gtk.showing 2017 2 5)) = Ok s /\ all_digits s = true.
Proof.
  apply (date_all_digits (Gtk.showing 2017 2 5) 2017 2 5);
    [apply showing_selected | lia | lia | lia].
Defined.

Lemma date_int_value_witness :
  exists s, fst (Calendar.date (Gtk.showing 2017 2 5)) = Ok s /\
    int_of_digits s = Some (2017 * 10000 + (2 + 1) * 100 + 5).
Proof.
  apply (date_int_value (Gtk.showing 2017 2 5) 2017 2 5);
    [apply showing_selected | lia | lia | lia].
Defined.

Lemma date_injective_witness :
  fst (Calendar.date (Gtk.showing 2017 2 5)) =
    fst (Calendar.date (snd (Calendar.date (Gtk.showing 2017 2 5)))) /\
  (2017, 2, 5) = (2017, 2, 5).
Proof.
  assert (Heq : fst (Calendar.date (Gtk.showing 2017 2 5)) =
                fst (Calendar.date (snd (Calendar.date (Gtk.showing 2017 2 5)))))
    by reflexivity.
  split; [exact Heq|].
  apply (date_injective (Gtk.showing 2017 2 5)
           (snd (Calendar.date (Gtk.showing 2017 2 5))) 2017 2 5 2017 2 5);
    [apply showing_selected | apply date_keeps_selected, showing_selected
    | lia | lia | lia | lia | lia | lia | exact Heq].
Defined.

Lemma date_order_witness :
  exists s1 s2,
    fst (Calendar.date (Gtk.showing 2017 2 5)) = Ok s1 /\
    fst (Calendar.date (Gtk.showing 2017 11 1)) = Ok s2 /\
    (String.ltb s1 s2 = true <-> earlier (2017, 2, 5) (2017, 11, 1)).
Proof.
  apply (date_order (Gtk.showing 2017 2 5) (Gtk.showing 2017 11 1));
    [apply showing_selected | apply showing_selected
    | lia | lia | lia | lia | lia | lia].
Defined.

Lemma date_slices_roundtrip_witness :
  exists s, fst (Calendar.date (Gtk.showing 2005 9 9)) = Ok s /\
    int_of_digits (substring 0 4 s) = Some 2005 /\
    int_of_digits (substring 4 2 s) = Some (9 + 1) /\
    int_of_digits (substring 6 2 s) = Some 9.
Proof.
  apply (date_slices_roundtrip (Gtk.showing 2005 9 9) 2005 9 9);
    [apply showing_selected | lia | lia | lia].
Defined.

(** Without the bound on the year the order of the strings is not the
    calendar order: the year 999 precedes the year 1000, but its string
    does not. *)
Example date_order_short_year :
  fst (Calendar.date (Gtk.showing 999 0 1)) = Ok "9990101"%string /\
  fst (Calendar.date (Gtk.showing 1000 0 1)) = Ok "10000101"%string /\
  String.ltb "9990101" "10000101" = false.
Proof. repeat split. Qed.
